(** * Voter registration routes of the Vanadium backend

    A shallow embedding of
    [src/electos/vanadium/app/routes/voter_registration.py]: the four
    route handlers (create, status, update, cancel) over an injected
    storage object, and the properties the specification states for
    them. *)

From Stdlib Require Import ZArith.
From stdpp Require Import gmap strings list fin_maps.

Local Open Scope Z_scope.
Local Open Scope string_scope.

(** ** Data model *)

(** [VoterRecordsRequest], the decoded request body.  The routes read
    [transaction_id] only; the remaining fields are carried through. *)
Record VoterRecordsRequest := {
  transaction_id : option string;
  Form : string;
  GeneratedDate : string;
  Type_ : string;
}.

(** Python values a storage method can hand back to a route. *)
Inductive value :=
| VNone
| VBool (b : bool)
| VInt (n : Z)
| VStr (s : string)
| VObj (r : VoterRecordsRequest).

(** Python truthiness, the test behind [if registration_id:] and
    [if value:].  A request object defines neither [__bool__] nor
    [__len__], so it is always true. *)
Definition truthy (v : value) : bool :=
  match v with
  | VNone => false
  | VBool b => b
  | VInt n => negb (Z.eqb n 0)
  | VStr s => negb (String.eqb s "")
  | VObj _ => true
  end.

(** Modelled from the spec: the enumerations and response classes of
    [vanadium.models.nist.vri], which is not part of the sources at
    hand.  The routes use one error code and three action tags; the
    other members are those of the NIST voter records interchange
    enumerations the module mirrors. *)
Inductive SuccessAction :=
| ADDRESS_UPDATED
| NAME_UPDATED
| REGISTRATION_CANCELLED
| REGISTRATION_CREATED
| REGISTRATION_UPDATED
| STATUS_UPDATED
| SUCCESS_OTHER.

Inductive RequestError :=
| IDENTITY_LOOKUP_FAILED
| INCOMPLETE
| INELIGIBLE
| INVALID_FORM
| ERROR_OTHER.

Record Error := { Name : RequestError }.

(** The three result shapes: the sub-classes of [VoterRecordsResponse]. *)
Inductive VoterRecordsResponse :=
| RequestSuccess (Action : list SuccessAction) (TransactionId : value)
| RequestRejection (AdditionalDetails : list string) (Error_ : list Error)
    (TransactionId : value)
| RequestAcknowledgement (TransactionId : value).

(** The [Response] object FastAPI injects so that a route can set the
    status code.  It arrives with no status set. *)
Record Response := { status_code : option Z }.

Definition HTTP_200_OK : Z := 200.
Definition HTTP_201_CREATED : Z := 201.
Definition HTTP_400_BAD_REQUEST : Z := 400.
Definition HTTP_404_NOT_FOUND : Z := 404.

(** [http_response.status_code = code] *)
Definition set_status_code (code : Z) (http_response : Response) : Response :=
  {| status_code := Some code |}.

Definition new_response : Response := {| status_code := None |}.

(** The code that goes on the wire: the one the route set, or else the
    default of the route.  No decorator in the source gives a
    [status_code], so the default is 200. *)
Definition sent_status (http_response : Response) : Z :=
  default HTTP_200_OK (status_code http_response).

(** ** The storage interface

    [storage] is injected with [Depends(storage_resource.get_storage)];
    the routes only call its four methods.  Each method may change the
    storage and returns a Python value. *)
Class Storage (St : Type) := {
  storage_insert : option string -> VoterRecordsRequest -> St -> value * St;
  storage_lookup : string -> St -> value * St;
  storage_update : string -> VoterRecordsRequest -> St -> value * St;
  storage_remove : string -> St -> value * St;
}.

(** ** The routes *)

Definition already_exists_detail : string :=
  "Voter registration request already exists. " +:+
  "The transaction ID is already associated to a pending request.".

Definition not_found_detail : string :=
  "Voter registration request not found. " +:+
  "The transaction ID isn't associated with any pending requests.".

Section Routes.
Context {St : Type} `{!Storage St}.

(** POST / *)
Definition voter_registration_request (item : VoterRecordsRequest)
    (http_response : Response) (storage : St)
  : VoterRecordsResponse * Response * St :=
  let '(registration_id, storage) :=
    storage_insert (transaction_id item) item storage in
  if truthy registration_id then
    (RequestSuccess [REGISTRATION_CREATED] registration_id,
     set_status_code HTTP_201_CREATED http_response,
     storage)
  else
    (RequestRejection [already_exists_detail]
       [{| Name := IDENTITY_LOOKUP_FAILED |}] registration_id,
     set_status_code HTTP_400_BAD_REQUEST http_response,
     storage).

(** GET /{transaction_id} *)
Definition voter_registration_status (transaction_id : string)
    (http_response : Response) (storage : St)
  : VoterRecordsResponse * Response * St :=
  let '(value, storage) := storage_lookup transaction_id storage in
  if truthy value then
    (RequestAcknowledgement (VStr transaction_id), http_response, storage)
  else
    (RequestRejection [not_found_detail]
       [{| Name := IDENTITY_LOOKUP_FAILED |}] (VStr transaction_id),
     set_status_code HTTP_404_NOT_FOUND http_response,
     storage).

(** PUT /{transaction_id} *)
Definition voter_registration_update (transaction_id : string)
    (item : VoterRecordsRequest) (http_response : Response) (storage : St)
  : VoterRecordsResponse * Response * St :=
  let '(value, storage) := storage_update transaction_id item storage in
  if truthy value then
    (RequestSuccess [REGISTRATION_UPDATED] (VStr transaction_id),
     http_response, storage)
  else
    (RequestRejection [not_found_detail]
       [{| Name := IDENTITY_LOOKUP_FAILED |}] (VStr transaction_id),
     set_status_code HTTP_404_NOT_FOUND http_response,
     storage).

(** DELETE /{transaction_id} *)
Definition voter_registration_cancel (transaction_id : string)
    (http_response : Response) (storage : St)
  : VoterRecordsResponse * Response * St :=
  let '(value, storage) := storage_remove transaction_id storage in
  if truthy value then
    (RequestSuccess [REGISTRATION_CANCELLED] (VStr transaction_id),
     http_response, storage)
  else
    (RequestRejection [not_found_detail]
       [{| Name := IDENTITY_LOOKUP_FAILED |}] (VStr transaction_id),
     set_status_code HTTP_404_NOT_FOUND http_response,
     storage).
End Routes.

(** ** Requests and the router

    [_router] sends each request to the route registered for its
    method: POST to create, GET to status, PUT to update, DELETE to
    cancel. *)
Inductive LifecycleRequest :=
| Create (item : VoterRecordsRequest)
| Status (transaction_id : string)
| Update (transaction_id : string) (item : VoterRecordsRequest)
| Cancel (transaction_id : string).

Definition router {St : Type} `{!Storage St} (request : LifecycleRequest)
    (http_response : Response) (storage : St)
  : VoterRecordsResponse * Response * St :=
  match request with
  | Create item => voter_registration_request item http_response storage
  | Status transaction_id =>
      voter_registration_status transaction_id http_response storage
  | Update transaction_id item =>
      voter_registration_update transaction_id item http_response storage
  | Cancel transaction_id =>
      voter_registration_cancel transaction_id http_response storage
  end.

Definition response_of {St : Type} (r : VoterRecordsResponse * Response * St)
  : VoterRecordsResponse := r.1.1.
Definition http_of {St : Type} (r : VoterRecordsResponse * Response * St)
  : Response := r.1.2.
Definition storage_of {St : Type} (r : VoterRecordsResponse * Response * St)
  : St := r.2.

(** ** The lifecycle table of the specification

    These definitions follow the words of the specification, to be
    compared with the routes above. *)

(** The "Store call" column. *)
Definition store_call {St : Type} `{!Storage St} (request : LifecycleRequest)
    (storage : St) : value * St :=
  match request with
  | Create item => storage_insert (transaction_id item) item storage
  | Status transaction_id => storage_lookup transaction_id storage
  | Update transaction_id item => storage_update transaction_id item storage
  | Cancel transaction_id => storage_remove transaction_id storage
  end.

(** The success half of the "Outcome -> Result" column; [returned] is
    what the store call gave back. *)
Definition success_shape (request : LifecycleRequest) (returned : value)
  : VoterRecordsResponse :=
  match request with
  | Create _ => RequestSuccess [REGISTRATION_CREATED] returned
  | Status transaction_id => RequestAcknowledgement (VStr transaction_id)
  | Update transaction_id _ =>
      RequestSuccess [REGISTRATION_UPDATED] (VStr transaction_id)
  | Cancel transaction_id =>
      RequestSuccess [REGISTRATION_CANCELLED] (VStr transaction_id)
  end.

(** The identifier the caller supplied in the path, if the request has one. *)
Definition requested_id (request : LifecycleRequest) : option string :=
  match request with
  | Create _ => None
  | Status transaction_id | Update transaction_id _ | Cancel transaction_id =>
      Some transaction_id
  end.

Definition is_create (request : LifecycleRequest) : bool :=
  match request with
  | Create _ => true
  | _ => false
  end.

(** Accessors on results. *)
Definition is_rejection (r : VoterRecordsResponse) : bool :=
  match r with
  | RequestRejection _ _ _ => true
  | _ => false
  end.

Definition error_codes (r : VoterRecordsResponse) : list RequestError :=
  match r with
  | RequestRejection _ errors _ => Name <$> errors
  | _ => []
  end.

Definition details (r : VoterRecordsResponse) : list string :=
  match r with
  | RequestRejection additional _ _ => additional
  | _ => []
  end.

Definition response_id (r : VoterRecordsResponse) : value :=
  match r with
  | RequestSuccess _ tid | RequestRejection _ _ tid
  | RequestAcknowledgement tid => tid
  end.

(** The status-code mapping of the reference system, by request kind
    and by whether the store call reported success. *)
Definition reference_status (request : LifecycleRequest) (ok : bool) : Z :=
  match request, ok with
  | Create _, true => 201
  | Create _, false => 400
  | _, true => 200
  | _, false => 404
  end.

(** ** Recording the storage calls of a route

    A storage that wraps another one and appends every method call to
    a log, arguments included. *)
Inductive StoreCall :=
| CallInsert (requested : option string) (item : VoterRecordsRequest)
| CallLookup (transaction_id : string)
| CallUpdate (transaction_id : string) (item : VoterRecordsRequest)
| CallRemove (transaction_id : string).

Definition logged {St : Type} (call : StoreCall) (method : St -> value * St)
    (storage : St * list StoreCall) : value * (St * list StoreCall) :=
  let '(returned, inner) := method storage.1 in
  (returned, (inner, (storage.2 ++ [call])%list)).

#[export] Instance logged_storage {St : Type} `{!Storage St}
  : Storage (St * list StoreCall) := {|
  storage_insert k item := logged (CallInsert k item) (storage_insert k item);
  storage_lookup k := logged (CallLookup k) (storage_lookup k);
  storage_update k item := logged (CallUpdate k item) (storage_update k item);
  storage_remove k := logged (CallRemove k) (storage_remove k);
|}.

(** The call the lifecycle table prescribes for a request. *)
Definition table_call (request : LifecycleRequest) : StoreCall :=
  match request with
  | Create item => CallInsert (transaction_id item) item
  | Status transaction_id => CallLookup transaction_id
  | Update transaction_id item => CallUpdate transaction_id item
  | Cancel transaction_id => CallRemove transaction_id
  end.

(** ** The transaction store *)

Module TransactionStore.

(** Modelled from the spec: the storage backend behind
    [storage_resource.get_storage], which is not part of the sources
    at hand.  Section 4.1 of the specification gives its contract:
    an identifier-to-record mapping with [insert], [lookup], [update]
    and [remove], each resolving to an [Outcome]. *)
Inductive Outcome :=
| Created (id : string)
| Found (id : string) (record : VoterRecordsRequest)
| Updated (id : string)
| Removed (id : string)
| Conflict (id : string)
| Absent (id : string).

Abbreviation mapping := (gmap string VoterRecordsRequest).

(** Modelled from the spec: "generate a fresh identifier guaranteed
    not currently in use".  Identifiers are tokens in string form, so
    the empty string is never generated. *)
Definition fresh_id (m : mapping) : string := fresh ({[""]} ∪ dom m).

(** Modelled from the spec: [insert(requested_id, record)]. *)
Definition insert (requested_id : option string)
    (record : VoterRecordsRequest) (m : mapping) : Outcome * mapping :=
  match requested_id with
  | None => let id := fresh_id m in (Created id, <[id:=record]> m)
  | Some id =>
      match m !! id with
      | Some _ => (Conflict id, m)
      | None => (Created id, <[id:=record]> m)
      end
  end.

(** Modelled from the spec: [lookup(id)]. *)
Definition lookup (id : string) (m : mapping) : Outcome * mapping :=
  match m !! id with
  | Some record => (Found id record, m)
  | None => (Absent id, m)
  end.

(** Modelled from the spec: [update(id, record)]; it does not create. *)
Definition update (id : string) (record : VoterRecordsRequest)
    (m : mapping) : Outcome * mapping :=
  match m !! id with
  | Some _ => (Updated id, <[id:=record]> m)
  | None => (Absent id, m)
  end.

(** Modelled from the spec: [remove(id)]. *)
Definition remove (id : string) (m : mapping) : Outcome * mapping :=
  match m !! id with
  | Some _ => (Removed id, delete id m)
  | None => (Absent id, m)
  end.

(** Modelled from the spec: how an outcome reaches the route, whose
    code receives a plain Python value: "success-with-identifier, or
    conflict/absent" (section 2).  A creation, update or removal
    hands back the identifier, a lookup the stored record, and
    conflict and absence hand back [None], the null [TransactionId]
    that the create route documents for its rejection. *)
Definition returned (o : Outcome) : value :=
  match o with
  | Created id | Updated id | Removed id => VStr id
  | Found _ record => VObj record
  | Conflict _ | Absent _ => VNone
  end.

Definition call (method : mapping -> Outcome * mapping) (m : mapping)
  : value * mapping :=
  let '(o, m') := method m in (returned o, m').

#[export] Instance storage : Storage mapping := {|
  storage_insert k item := call (insert k item);
  storage_lookup k := call (lookup k);
  storage_update k item := call (update k item);
  storage_remove k := call (remove k);
|}.

End TransactionStore.
Export (hints) TransactionStore.

(** Running a sequence of create requests against one store, each on
    a new [Response]. *)
Fixpoint create_all {St : Type} `{!Storage St}
    (items : list VoterRecordsRequest) (storage : St)
  : list VoterRecordsResponse * St :=
  match items with
  | [] => ([], storage)
  | item :: items =>
      let r := router (Create item) new_response storage in
      let '(responses, storage) := create_all items (storage_of r) in
      (response_of r :: responses, storage)
  end.

(** The identifiers handed out by the successful responses of a run. *)
Definition granted_id (r : VoterRecordsResponse) : option string :=
  match r with
  | RequestSuccess _ (VStr id) => Some id
  | _ => None
  end.

Definition granted (responses : list VoterRecordsResponse) : list string :=
  omap granted_id responses.

Definition sample_item (tid : option string) : VoterRecordsRequest :=
  {| transaction_id := tid; Form := "nvra"; GeneratedDate := "2022-01-01";
     Type_ := "registration" |}.

(** A store holding one registration, under the identifier ["a"]. *)
Definition sample_store : gmap string VoterRecordsRequest :=
  {[ "a" := sample_item (Some "a") ]}.

(** What a route builds when the value the store call returned is
    false: the create route passes that value on as [TransactionId],
    the other three pass the identifier of the path. *)
Definition rejection_shape (request : LifecycleRequest) (returned : value)
  : VoterRecordsResponse :=
  match request with
  | Create _ =>
      RequestRejection [already_exists_detail]
        [{| Name := IDENTITY_LOOKUP_FAILED |}] returned
  | Status transaction_id | Update transaction_id _ | Cancel transaction_id =>
      RequestRejection [not_found_detail]
        [{| Name := IDENTITY_LOOKUP_FAILED |}] (VStr transaction_id)
  end.

(** What a route does to the [Response] it was given. *)
Definition status_after (request : LifecycleRequest) (ok : bool)
    (http_response : Response) : Response :=
  match request, ok with
  | Create _, true => set_status_code HTTP_201_CREATED http_response
  | Create _, false => set_status_code HTTP_400_BAD_REQUEST http_response
  | _, true => http_response
  | _, false => set_status_code HTTP_404_NOT_FOUND http_response
  end.

(** How a store call tells the route that it failed.  Absence is any
    false value; for a conflict the create route documents a null
    [TransactionId], which is the returned value itself: [None]. *)
Definition reports_failure (request : LifecycleRequest) (returned : value)
  : Prop :=
  if is_create request then returned = VNone else truthy returned = false.

(** [phrase] occurs in [s]. *)
Definition contains (phrase s : string) : bool :=
  bool_decide (is_Some (String.index 0 phrase s)).

(** ** Declared response models and runs of requests *)

(** The class of a response object. *)
Inductive ResponseClass :=
| ClassSuccess
| ClassRejection
| ClassAcknowledgement.

Definition class_of (r : VoterRecordsResponse) : ResponseClass :=
  match r with
  | RequestSuccess _ _ => ClassSuccess
  | RequestRejection _ _ _ => ClassRejection
  | RequestAcknowledgement _ => ClassAcknowledgement
  end.

(** The [response_model] each route declares in its decorator:
    [Union[RequestSuccess, RequestRejection]] for POST, PUT and DELETE,
    [Union[RequestAcknowledgement, RequestRejection]] for GET. *)
Definition response_model (request : LifecycleRequest) : list ResponseClass :=
  match request with
  | Status _ => [ClassAcknowledgement; ClassRejection]
  | Create _ | Update _ _ | Cancel _ => [ClassSuccess; ClassRejection]
  end.

(** The route a request is sent to. *)
Inductive RouteKind := KCreate | KStatus | KUpdate | KCancel.

Definition kind_of (request : LifecycleRequest) : RouteKind :=
  match request with
  | Create _ => KCreate
  | Status _ => KStatus
  | Update _ _ => KUpdate
  | Cancel _ => KCancel
  end.

(** Serving requests one after the other against the one storage that
    [get_storage] injects; every request gets a [Response] of its own.
    Each answer is the body with the status code that goes out. *)
Fixpoint serve_all {St : Type} `{!Storage St}
    (requests : list LifecycleRequest) (storage : St)
  : list (VoterRecordsResponse * Z) * St :=
  match requests with
  | [] => ([], storage)
  | request :: requests =>
      let r := router request new_response storage in
      let '(served, storage) := serve_all requests (storage_of r) in
      ((response_of r, sent_status (http_of r)) :: served, storage)
  end.

(** Making the storage calls of the lifecycle table for the requests,
    in order, with no route in between. *)
Fixpoint call_all {St : Type} `{!Storage St}
    (requests : list LifecycleRequest) (storage : St) : St :=
  match requests with
  | [] => storage
  | request :: requests => call_all requests (store_call request storage).2
  end.

(** ** Storage calls that raise

    A storage method is Python code and may raise instead of
    returning.  The routes have no [try], so what a call raises leaves
    the route as it is.  The routes are given again over a storage
    whose methods either return a value or raise; every line after the
    call is the one of the routes above. *)
Inductive exception := Exception (message : string).

Inductive result (A : Type) :=
| Returned (a : A)
| Raised (e : exception).
Arguments Returned {A} a.
Arguments Raised {A} e.

Class RaisingStorage (St : Type) := {
  raising_insert :
    option string -> VoterRecordsRequest -> St -> result value * St;
  raising_lookup : string -> St -> result value * St;
  raising_update : string -> VoterRecordsRequest -> St -> result value * St;
  raising_remove : string -> St -> result value * St;
}.

(** A storage whose methods always return is one that never raises. *)
Definition returning {St : Type} (r : value * St) : result value * St :=
  (Returned r.1, r.2).

#[export] Instance never_raising {St : Type} `{!Storage St}
  : RaisingStorage St := {|
  raising_insert k item storage := returning (storage_insert k item storage);
  raising_lookup k storage := returning (storage_lookup k storage);
  raising_update k item storage := returning (storage_update k item storage);
  raising_remove k storage := returning (storage_remove k storage);
|}.

(** A backend that is down: every method raises. *)
Inductive Unavailable := unavailable.

Definition storage_unavailable : exception := Exception "storage unavailable".

#[export] Instance unavailable_storage : RaisingStorage Unavailable := {|
  raising_insert _ _ storage := (Raised storage_unavailable, storage);
  raising_lookup _ storage := (Raised storage_unavailable, storage);
  raising_update _ _ storage := (Raised storage_unavailable, storage);
  raising_remove _ storage := (Raised storage_unavailable, storage);
|}.

Module Raising.

Section Routes.
Context {St : Type} `{!RaisingStorage St}.

(** POST / *)
Definition voter_registration_request (item : VoterRecordsRequest)
    (http_response : Response) (storage : St)
  : result (VoterRecordsResponse * Response) * St :=
  match raising_insert (transaction_id item) item storage with
  | (Raised e, storage) => (Raised e, storage)
  | (Returned registration_id, storage) =>
      if truthy registration_id then
        (Returned
           (RequestSuccess [REGISTRATION_CREATED] registration_id,
            set_status_code HTTP_201_CREATED http_response),
         storage)
      else
        (Returned
           (RequestRejection [already_exists_detail]
              [{| Name := IDENTITY_LOOKUP_FAILED |}] registration_id,
            set_status_code HTTP_400_BAD_REQUEST http_response),
         storage)
  end.

(** GET /{transaction_id} *)
Definition voter_registration_status (transaction_id : string)
    (http_response : Response) (storage : St)
  : result (VoterRecordsResponse * Response) * St :=
  match raising_lookup transaction_id storage with
  | (Raised e, storage) => (Raised e, storage)
  | (Returned value, storage) =>
      if truthy value then
        (Returned (RequestAcknowledgement (VStr transaction_id),
                   http_response),
         storage)
      else
        (Returned
           (RequestRejection [not_found_detail]
              [{| Name := IDENTITY_LOOKUP_FAILED |}] (VStr transaction_id),
            set_status_code HTTP_404_NOT_FOUND http_response),
         storage)
  end.

(** PUT /{transaction_id} *)
Definition voter_registration_update (transaction_id : string)
    (item : VoterRecordsRequest) (http_response : Response) (storage : St)
  : result (VoterRecordsResponse * Response) * St :=
  match raising_update transaction_id item storage with
  | (Raised e, storage) => (Raised e, storage)
  | (Returned value, storage) =>
      if truthy value then
        (Returned
           (RequestSuccess [REGISTRATION_UPDATED] (VStr transaction_id),
            http_response),
         storage)
      else
        (Returned
           (RequestRejection [not_found_detail]
              [{| Name := IDENTITY_LOOKUP_FAILED |}] (VStr transaction_id),
            set_status_code HTTP_404_NOT_FOUND http_response),
         storage)
  end.

(** DELETE /{transaction_id} *)
Definition voter_registration_cancel (transaction_id : string)
    (http_response : Response) (storage : St)
  : result (VoterRecordsResponse * Response) * St :=
  match raising_remove transaction_id storage with
  | (Raised e, storage) => (Raised e, storage)
  | (Returned value, storage) =>
      if truthy value then
        (Returned
           (RequestSuccess [REGISTRATION_CANCELLED] (VStr transaction_id),
            http_response),
         storage)
      else
        (Returned
           (RequestRejection [not_found_detail]
              [{| Name := IDENTITY_LOOKUP_FAILED |}] (VStr transaction_id),
            set_status_code HTTP_404_NOT_FOUND http_response),
         storage)
  end.

Definition router (request : LifecycleRequest) (http_response : Response)
    (storage : St) : result (VoterRecordsResponse * Response) * St :=
  match request with
  | Create item => voter_registration_request item http_response storage
  | Status transaction_id =>
      voter_registration_status transaction_id http_response storage
  | Update transaction_id item =>
      voter_registration_update transaction_id item http_response storage
  | Cancel transaction_id =>
      voter_registration_cancel transaction_id http_response storage
  end.

(** The "Store call" column of the lifecycle table. *)
Definition store_call (request : LifecycleRequest) (storage : St)
  : result value * St :=
  match request with
  | Create item => raising_insert (transaction_id item) item storage
  | Status transaction_id => raising_lookup transaction_id storage
  | Update transaction_id item => raising_update transaction_id item storage
  | Cancel transaction_id => raising_remove transaction_id storage
  end.
End Routes.

End Raising.


(** * Properties of the routes *)

Section RouteFacts.
Context {St : Type} `{!Storage St}.
Implicit Types (request : LifecycleRequest) (h : Response) (storage : St).

(** Every route is one store call followed by one test of the
    returned value. *)
Lemma router_cases request h storage :
  router request h storage =
    let '(returned, storage') := store_call request storage in
    (if truthy returned then success_shape request returned
     else rejection_shape request returned,
     status_after request (truthy returned) h,
     storage').
Proof.
  destruct request; simpl;
    unfold voter_registration_request, voter_registration_status,
      voter_registration_update, voter_registration_cancel;
    match goal with |- context [let '(_, _) := ?c in _] => destruct c as [v s'] end;
    destruct (truthy v); reflexivity.
Qed.

Lemma response_of_router request h storage :
  response_of (router request h storage) =
    let returned := (store_call request storage).1 in
    if truthy returned then success_shape request returned
    else rejection_shape request returned.
Proof.
  rewrite router_cases. destruct (store_call request storage); reflexivity.
Qed.

Lemma http_of_router request h storage :
  http_of (router request h storage) =
    status_after request (truthy (store_call request storage).1) h.
Proof.
  rewrite router_cases. destruct (store_call request storage); reflexivity.
Qed.

Lemma storage_of_router request h storage :
  storage_of (router request h storage) = (store_call request storage).2.
Proof.
  rewrite router_cases. destruct (store_call request storage); reflexivity.
Qed.
End RouteFacts.

Section LifecycleTable.
Context {St : Type} `{!Storage St}.
Implicit Types (request : LifecycleRequest) (h : Response) (storage : St).


(** C2.  When the store call returns a false value (conflict on
    create, absence on status, update and cancel), the route answers
    with a Rejection whose only error code is IDENTITY_LOOKUP_FAILED,
    the same code in all four operations. *)
Theorem failure_is_identity_lookup_failed request h storage :
  truthy (store_call request storage).1 = false ->
  is_rejection (response_of (router request h storage)) = true /\
  error_codes (response_of (router request h storage))
    = [IDENTITY_LOOKUP_FAILED].
Proof.
  intros Hko. rewrite response_of_router. simpl. rewrite Hko.
  destruct request; split; reflexivity.
Qed.

(** C3.  The identifier asymmetry of rejections: a create rejected
    for a conflict carries no identifier ([None]), while a status,
    update or cancel rejected for absence carries exactly the
    identifier the caller supplied. *)
Theorem rejection_identifier_asymmetry request h storage :
  reports_failure request (store_call request storage).1 ->
  is_rejection (response_of (router request h storage)) = true /\
  response_id (response_of (router request h storage)) =
    match requested_id request with
    | Some transaction_id => VStr transaction_id
    | None => VNone
    end.
Proof.
  unfold reports_failure. intros Hko. rewrite response_of_router. simpl.
  destruct request; simpl in *; rewrite Hko; split; reflexivity.
Qed.

(** C5.  Status codes: create sets 201 on success and 400 on
    conflict; status, update and cancel leave the status of the
    [Response] as it was on success, so the default 200 goes out, and
    set 404 on absence. *)
Theorem status_codes_follow_reference request h storage :
  let ok := truthy (store_call request storage).1 in
  status_code (http_of (router request h storage)) =
    match request, ok with
    | Create _, true => Some 201
    | Create _, false => Some 400
    | _, true => status_code h
    | _, false => Some 404
    end /\
  sent_status (http_of (router request new_response storage))
    = reference_status request ok.
Proof.
  intros ok. rewrite !http_of_router. fold ok.
  destruct request, ok; split; reflexivity.
Qed.

(** C9, amended.  The detail of a Rejection is one sentence: on a
    create conflict it is the sentence [already_exists_detail], which
    contains "request already exists"; on a status, update or cancel
    absence it is the sentence [not_found_detail], which contains
    "not found". *)
Theorem rejection_detail_sentences request h storage :
  truthy (store_call request storage).1 = false ->
  details (response_of (router request h storage)) =
    [if is_create request then already_exists_detail else not_found_detail]
  /\ already_exists_detail =
       "Voter registration request already exists. The transaction ID is already associated to a pending request."
  /\ not_found_detail =
       "Voter registration request not found. The transaction ID isn't associated with any pending requests."
  /\ contains "request already exists" already_exists_detail = true
  /\ contains "not found" not_found_detail = true.
Proof.
  intros Hko. rewrite response_of_router. simpl. rewrite Hko.
  split; [destruct request; reflexivity |].
  repeat split; vm_compute; reflexivity.
Qed.

(** C10.  The routes test the truthiness of what the store call
    returned, whatever it is: any false value ([None], but also an
    empty identifier, [False] or zero) makes create answer with its
    Rejection and status 400, and makes status (and update and
    cancel) answer with the not-found Rejection and status 404. *)
Theorem falsy_result_is_reported_as_failure request h storage :
  truthy (store_call request storage).1 = false ->
  response_of (router request h storage) =
    rejection_shape request (store_call request storage).1 /\
  status_code (http_of (router request h storage)) =
    Some (if is_create request then HTTP_400_BAD_REQUEST
          else HTTP_404_NOT_FOUND).
Proof.
  intros Hko. rewrite response_of_router, http_of_router. simpl.
  rewrite Hko. destruct request; split; reflexivity.
Qed.
End LifecycleTable.

(** * Properties over the transaction store *)

Section StoreFacts.
Import TransactionStore.
Implicit Types (m : mapping) (id : string) (item : VoterRecordsRequest).

Lemma fresh_id_free m : m !! fresh_id m = None.
Proof.
  apply not_elem_of_dom. unfold fresh_id.
  pose proof (is_fresh ({[""]} ∪ dom m)) as Hf. set_solver.
Qed.

Lemma fresh_id_nonempty m : fresh_id m <> "".
Proof.
  unfold fresh_id. pose proof (is_fresh ({[""]} ∪ dom m)) as Hf.
  set_solver.
Qed.

Lemma truthy_VStr id : truthy (VStr id) = true <-> id <> "".
Proof.
  simpl. destruct (String.eqb_spec id ""); simpl; split; congruence.
Qed.

(** One create against the store: either the mapping is left as it
    was and no identifier is handed out, or the record is stored
    under an identifier that was free, the only one that can be
    handed out. *)
Lemma create_step item h m :
  let r := router (Create item) h m in
  (storage_of r = m /\ granted_id (response_of r) = None) \/
  (exists id, m !! id = None /\ storage_of r = <[id:=item]> m /\
     (granted_id (response_of r) = Some id \/
      granted_id (response_of r) = None)).
Proof.
  intros r. subst r. rewrite storage_of_router, response_of_router.
  simpl. unfold call, insert.
  destruct (transaction_id item) as [id|].
  - destruct (m !! id) eqn:Hid; simpl.
    + left. split; reflexivity.
    + right. exists id. split; [assumption | split; [reflexivity |]].
      destruct (negb (String.eqb id "")); simpl; auto.
  - right. exists (fresh_id m). simpl.
    split; [apply fresh_id_free | split; [reflexivity |]].
    destruct (negb (String.eqb (fresh_id m) "")); simpl; auto.
Qed.

(** A create that names an identifier in use is rejected and the
    mapping is returned untouched. *)
Lemma create_conflict item id h m :
  transaction_id item = Some id -> is_Some (m !! id) ->
  router (Create item) h m =
    (RequestRejection [already_exists_detail]
       [{| Name := IDENTITY_LOOKUP_FAILED |}] VNone,
     set_status_code HTTP_400_BAD_REQUEST h, m).
Proof.
  intros Htid [record Hin]. simpl. unfold voter_registration_request.
  simpl. unfold call, insert. rewrite Htid, Hin. reflexivity.
Qed.

Lemma create_all_cons item (items : list VoterRecordsRequest) m :
  create_all (item :: items) m =
    (response_of (router (Create item) new_response m)
       :: (create_all items
             (storage_of (router (Create item) new_response m))).1,
     (create_all items
        (storage_of (router (Create item) new_response m))).2).
Proof.
  cbn [create_all].
  destruct (create_all items _) as [responses m']. reflexivity.
Qed.

Lemma granted_cons (r : VoterRecordsResponse) responses :
  granted (r :: responses) =
    match granted_id r with
    | Some id => id :: granted responses
    | None => granted responses
    end.
Proof. reflexivity. Qed.

Lemma create_all_invariant (items : list VoterRecordsRequest) m :
  NoDup (granted (create_all items m).1) /\
  (forall id, id ∈ granted (create_all items m).1 ->
     m !! id = None /\ is_Some ((create_all items m).2 !! id)) /\
  (forall id record, m !! id = Some record ->
     (create_all items m).2 !! id = Some record).
Proof.
  revert m. induction items as [|item items IH]; intros m.
  - simpl. split; [constructor | split; [| auto]].
    intros id Hin. inversion Hin.
  - rewrite create_all_cons. cbn [fst snd]. rewrite granted_cons.
    set (r := router (Create item) new_response m).
    destruct (IH (storage_of r)) as (Hnd & Hfree & Hkeep).
    set (responses := (create_all items (storage_of r)).1) in *.
    set (m' := (create_all items (storage_of r)).2) in *.
    pose proof (create_step item new_response m) as Hstep.
    cbv zeta in Hstep. fold r in Hstep.
    destruct Hstep as [[Hsame Hnone]|(id & Hid & Hst & Hgr)].
    + rewrite Hnone. subst responses m'. rewrite Hsame in *. auto.
    + assert (Hkeep' : forall id' record,
                 m !! id' = Some record -> m' !! id' = Some record).
      { intros id' record Hin. apply Hkeep. rewrite Hst.
        rewrite lookup_insert_ne; [assumption | congruence]. }
      assert (Hfree' : forall id', id' ∈ granted responses ->
                 m !! id' = None /\ is_Some (m' !! id')).
      { intros id' Hin. destruct (Hfree id' Hin) as [Hn Hs].
        split; [| assumption]. rewrite Hst in Hn.
        destruct (decide (id = id')) as [->|Hne].
        - rewrite lookup_insert_eq in Hn. discriminate.
        - rewrite lookup_insert_ne in Hn; assumption. }
      destruct Hgr as [Hgr|Hgr]; rewrite Hgr; [| auto].
      split; [| split; [| assumption]].
      * constructor; [| assumption]. intros Hin.
        destruct (Hfree id Hin) as [Hn _]. rewrite Hst in Hn.
        rewrite lookup_insert_eq in Hn. discriminate.
      * intros id' Hin. apply elem_of_cons in Hin as [->|Hin]; [| auto].
        split; [assumption |]. exists item. apply Hkeep.
        rewrite Hst. apply lookup_insert_eq.
Qed.

(** C6.  Over any run of creates against one store: the identifiers
    handed out are pairwise distinct, each was free when the run
    began and is live afterwards, the live identifiers of the store
    are pairwise distinct, no record that was live is overwritten, and
    a create that names an identifier in use is rejected as a
    conflict with the mapping left as it was. *)
Theorem creates_keep_identifiers_unique
    (items : list VoterRecordsRequest) m :
  NoDup (granted (create_all items m).1) /\
  NoDup (map_to_list (create_all items m).2).*1 /\
  (forall id, id ∈ granted (create_all items m).1 ->
     m !! id = None /\ is_Some ((create_all items m).2 !! id)) /\
  (forall id record, m !! id = Some record ->
     (create_all items m).2 !! id = Some record) /\
  (forall item id h, transaction_id item = Some id -> is_Some (m !! id) ->
     router (Create item) h m =
       (RequestRejection [already_exists_detail]
          [{| Name := IDENTITY_LOOKUP_FAILED |}] VNone,
        set_status_code HTTP_400_BAD_REQUEST h, m)).
Proof.
  destruct (create_all_invariant items m) as (Hnd & Hfree & Hkeep).
  split; [assumption | split; [apply NoDup_fst_map_to_list |]].
  split; [assumption | split; [assumption |]].
  intros item id h. apply create_conflict.
Qed.
End StoreFacts.

Section CancelAndCalls.
Import TransactionStore.
Implicit Types (m : mapping) (id : string) (item : VoterRecordsRequest).

(** A cancel answers with Success only when the identifier was live
    and is not the empty string; the record is then deleted. *)
Lemma cancel_success id h m :
  response_of (router (Cancel id) h m) =
    RequestSuccess [REGISTRATION_CANCELLED] (VStr id) ->
  id <> "" /\ is_Some (m !! id) /\
  storage_of (router (Cancel id) h m) = delete id m.
Proof.
  rewrite response_of_router, storage_of_router. simpl.
  unfold call, remove. destruct (m !! id) as [record|] eqn:Hid; simpl.
  - destruct (String.eqb_spec id ""); simpl; [discriminate |].
    intros _. split; [assumption | split; [eauto | reflexivity]].
  - discriminate.
Qed.

(** C7.  Cancel frees the identifier: after a cancel of [id] that
    answered Success, a status request for [id] is rejected as not
    found (404) and leaves the store as the cancel left it, and a
    create that supplies [id] then succeeds (201) and stores its
    record under [id]. *)
Theorem cancel_frees_identifier id item h1 h2 h3 m :
  response_of (router (Cancel id) h1 m) =
    RequestSuccess [REGISTRATION_CANCELLED] (VStr id) ->
  transaction_id item = Some id ->
  let m1 := storage_of (router (Cancel id) h1 m) in
  let after_status := router (Status id) h2 m1 in
  let after_create := router (Create item) h3 (storage_of after_status) in
  m1 !! id = None /\
  response_of after_status =
    RequestRejection [not_found_detail]
      [{| Name := IDENTITY_LOOKUP_FAILED |}] (VStr id) /\
  status_code (http_of after_status) = Some HTTP_404_NOT_FOUND /\
  storage_of after_status = m1 /\
  response_of after_create =
    RequestSuccess [REGISTRATION_CREATED] (VStr id) /\
  status_code (http_of after_create) = Some HTTP_201_CREATED /\
  storage_of after_create !! id = Some item.
Proof.
  intros Hcancel Htid m1 after_status after_create.
  destruct (cancel_success id h1 m Hcancel) as (Hne & _ & Hm1).
  assert (Hfree : m1 !! id = None).
  { subst m1. rewrite Hm1. apply lookup_delete_eq. }
  assert (Hstatus : after_status =
            (RequestRejection [not_found_detail]
               [{| Name := IDENTITY_LOOKUP_FAILED |}] (VStr id),
             set_status_code HTTP_404_NOT_FOUND h2, m1)).
  { subst after_status. simpl. unfold voter_registration_status. simpl.
    unfold call, lookup. rewrite Hfree. reflexivity. }
  assert (Hcreate : after_create =
            (RequestSuccess [REGISTRATION_CREATED] (VStr id),
             set_status_code HTTP_201_CREATED h3, <[id:=item]> m1)).
  { subst after_create. rewrite Hstatus. simpl.
    unfold voter_registration_request. simpl. unfold call, insert.
    rewrite Htid, Hfree.
    apply truthy_VStr in Hne. cbn [returned]. rewrite Hne. reflexivity. }
  rewrite Hstatus, Hcreate. cbn [response_of http_of storage_of fst snd].
  repeat split; try reflexivity; try assumption.
  apply lookup_insert_eq.
Qed.

(** C8.  Every route makes exactly one storage call, the one the
    lifecycle table names, whatever that call returns: run on a
    logging storage, a route appends that one call to the log and
    leaves the wrapped storage in the state that call produced.  On
    the transaction store a status request leaves the mapping as it
    was, and a create, update or cancel changes it at one identifier
    at most. *)
Theorem one_store_call_per_request :
  (forall (St : Type) (S : Storage St) request h (storage : St) log,
     storage_of (router request h (storage, log)) =
       ((store_call request storage).2, (log ++ [table_call request])%list)
     /\ response_of (router request h (storage, log)) =
          response_of (router request h storage)) /\
  (forall request h m,
     match request with
     | Status _ => storage_of (router request h m) = m
     | Create item =>
         storage_of (router request h m) = m \/
         exists id, m !! id = None /\
           storage_of (router request h m) = <[id:=item]> m
     | Update id item =>
         storage_of (router request h m) = m \/
         is_Some (m !! id) /\
           storage_of (router request h m) = <[id:=item]> m
     | Cancel id =>
         storage_of (router request h m) = m \/
         is_Some (m !! id) /\ storage_of (router request h m) = delete id m
     end).
Proof.
  split.
  - intros St S request h storage log.
    rewrite storage_of_router, !response_of_router.
    destruct request; simpl; unfold logged; simpl;
      match goal with |- context [let '(_, _) := ?c in _] =>
        destruct c as [v s'] end; split; reflexivity.
  - intros request h m. rewrite storage_of_router.
    destruct request as [item|id|id item|id]; simpl; unfold call.
    + destruct (create_step item h m) as [[Hsame _]|(id & Hid & Hst & _)];
        rewrite storage_of_router in *; simpl in *; unfold call in *;
        eauto.
    + unfold lookup. destruct (m !! id); reflexivity.
    + unfold update. destruct (m !! id) eqn:Hid; simpl; eauto.
    + unfold remove. destruct (m !! id) eqn:Hid; simpl; eauto.
Qed.
End CancelAndCalls.

(** * The properties at concrete requests *)

Section Instances.
Import TransactionStore.


Lemma failure_is_identity_lookup_failed_witness :
  truthy (store_call (Status "b") sample_store).1 = false /\
  is_rejection (response_of (router (Status "b") new_response sample_store))
    = true /\
  error_codes (response_of (router (Status "b") new_response sample_store))
    = [IDENTITY_LOOKUP_FAILED].
Proof.
  assert (H : truthy (store_call (Status "b") sample_store).1 = false)
    by (vm_compute; reflexivity).
  split; [exact H |].
  exact (failure_is_identity_lookup_failed (Status "b") new_response
           sample_store H).
Defined.

Lemma rejection_identifier_asymmetry_witness :
  (reports_failure (Create (sample_item (Some "a")))
     (store_call (Create (sample_item (Some "a"))) sample_store).1 /\
   response_id (response_of
      (router (Create (sample_item (Some "a"))) new_response sample_store))
     = VNone) /\
  (reports_failure (Cancel "b") (store_call (Cancel "b") sample_store).1 /\
   response_id (response_of (router (Cancel "b") new_response sample_store))
     = VStr "b").
Proof.
  assert (H1 : reports_failure (Create (sample_item (Some "a")))
            (store_call (Create (sample_item (Some "a"))) sample_store).1)
    by (vm_compute; reflexivity).
  assert (H2 : reports_failure (Cancel "b")
            (store_call (Cancel "b") sample_store).1)
    by (vm_compute; reflexivity).
  split; (split; [assumption |]).
  - exact (proj2 (rejection_identifier_asymmetry
                    (Create (sample_item (Some "a"))) new_response
                    sample_store H1)).
  - exact (proj2 (rejection_identifier_asymmetry (Cancel "b") new_response
                    sample_store H2)).
Defined.

Lemma creates_keep_identifiers_unique_witness :
  granted (create_all [sample_item None; sample_item (Some "a");
                       sample_item None] sample_store).1 = ["0"; "1"] /\
  NoDup (granted (create_all [sample_item None; sample_item (Some "a");
                              sample_item None] sample_store).1) /\
  (create_all [sample_item None; sample_item (Some "a"); sample_item None]
     sample_store).2 !! "a" = Some (sample_item (Some "a")) /\
  router (Create (sample_item (Some "a"))) new_response sample_store =
    (RequestRejection [already_exists_detail]
       [{| Name := IDENTITY_LOOKUP_FAILED |}] VNone,
     set_status_code HTTP_400_BAD_REQUEST new_response, sample_store).
Proof.
  destruct (creates_keep_identifiers_unique
              [sample_item None; sample_item (Some "a"); sample_item None]
              sample_store) as (Hnd & _ & _ & Hkeep & Hconflict).
  split; [vm_compute; reflexivity | split; [exact Hnd | split]].
  - apply Hkeep. vm_compute. reflexivity.
  - apply (Hconflict (sample_item (Some "a")) "a" new_response).
    + reflexivity.
    + exists (sample_item (Some "a")). vm_compute. reflexivity.
Defined.

Lemma cancel_frees_identifier_witness :
  response_of (router (Cancel "a") new_response sample_store) =
    RequestSuccess [REGISTRATION_CANCELLED] (VStr "a") /\
  response_of (router (Status "a") new_response
                 (storage_of (router (Cancel "a") new_response sample_store)))
    = RequestRejection [not_found_detail]
        [{| Name := IDENTITY_LOOKUP_FAILED |}] (VStr "a") /\
  response_of
    (router (Create (sample_item (Some "a"))) new_response
       (storage_of
          (router (Status "a") new_response
             (storage_of (router (Cancel "a") new_response sample_store)))))
    = RequestSuccess [REGISTRATION_CREATED] (VStr "a").
Proof.
  assert (H : response_of (router (Cancel "a") new_response sample_store) =
              RequestSuccess [REGISTRATION_CANCELLED] (VStr "a"))
    by (vm_compute; reflexivity).
  destruct (cancel_frees_identifier "a" (sample_item (Some "a"))
              new_response new_response new_response sample_store
              H eq_refl) as (_ & Hstatus & _ & _ & Hcreate & _).
  split; [exact H | split; [exact Hstatus | exact Hcreate]].
Defined.

(** C9 as the specification words it fails: the detail of a rejected
    create is not the phrase "request already exists", and the detail
    of a rejected status request is not the phrase "not found". *)
Lemma detail_is_not_the_table_phrase :
  details (response_of
     (router (Create (sample_item (Some "a"))) new_response sample_store))
    <> ["request already exists"] /\
  details (response_of (router (Status "b") new_response sample_store))
    <> ["not found"].
Proof.
  split; intros H; vm_compute in H; discriminate H.
Qed.

Lemma rejection_detail_sentences_witness :
  truthy (store_call (Create (sample_item (Some "a"))) sample_store).1
    = false /\
  details (response_of
     (router (Create (sample_item (Some "a"))) new_response sample_store))
    = ["Voter registration request already exists. The transaction ID is already associated to a pending request."].
Proof.
  assert (H : truthy (store_call (Create (sample_item (Some "a")))
                        sample_store).1 = false)
    by (vm_compute; reflexivity).
  split; [exact H |].
  exact (proj1 (rejection_detail_sentences
                  (Create (sample_item (Some "a"))) new_response
                  sample_store H)).
Defined.

(** The store has taken the record in under the empty identifier,
    and the route still answers with a Rejection and status 400. *)
Lemma falsy_result_is_reported_as_failure_witness :
  (store_call (Create (sample_item (Some ""))) (∅ : mapping)).2 !! ""
    = Some (sample_item (Some "")) /\
  truthy (store_call (Create (sample_item (Some ""))) (∅ : mapping)).1
    = false /\
  response_of (router (Create (sample_item (Some ""))) new_response
                 (∅ : mapping))
    = RequestRejection [already_exists_detail]
        [{| Name := IDENTITY_LOOKUP_FAILED |}] (VStr "") /\
  status_code (http_of (router (Create (sample_item (Some "")))
                          new_response (∅ : mapping)))
    = Some HTTP_400_BAD_REQUEST.
Proof.
  assert (H : truthy (store_call (Create (sample_item (Some "")))
                        (∅ : mapping)).1 = false)
    by (vm_compute; reflexivity).
  split; [vm_compute; reflexivity | split; [exact H |]].
  exact (falsy_result_is_reported_as_failure
           (Create (sample_item (Some ""))) new_response (∅ : mapping) H).
Defined.
End Instances.

(** * Further properties of the routes *)

Section RouteShapes.
Context {St : Type} `{!Storage St}.
Implicit Types (request : LifecycleRequest) (h : Response) (storage : St).

Lemma details_differ : already_exists_detail <> not_found_detail.
Proof. intros H. vm_compute in H. discriminate H. Qed.

(** X1.  Whatever the storage returns, the body a route answers with
    is of a class its decorator declares as [response_model]. *)
Theorem response_matches_response_model request h storage :
  class_of (response_of (router request h storage)) ∈ response_model request.
Proof.
  rewrite response_of_router. cbv zeta.
  destruct request, (truthy _); simpl; repeat constructor.
Qed.

(** X2.  With the [Response] FastAPI hands in, the status code sent is
    one of 200, 201, 400 and 404, and it is a 4xx code exactly when the
    body is a Rejection. *)
Theorem status_agrees_with_body request storage :
  let r := router request new_response storage in
  sent_status (http_of r) ∈ [200; 201; 400; 404] /\
  is_rejection (response_of r) = Z.leb 400 (sent_status (http_of r)).
Proof.
  intros r. subst r. rewrite response_of_router, http_of_router. cbv zeta.
  destruct request, (truthy _); simpl; split;
    first [reflexivity | repeat constructor].
Qed.

(** X3.  Where the identifier of a body comes from: create passes on
    what the storage returned, in the Success and in the Rejection
    alike; status, update and cancel always answer with the identifier
    of the path and never with anything the storage returned. *)
Theorem response_identifier_source request h storage :
  response_id (response_of (router request h storage)) =
    match requested_id request with
    | Some transaction_id => VStr transaction_id
    | None => (store_call request storage).1
    end.
Proof.
  rewrite response_of_router. cbv zeta.
  destruct request, (truthy _); reflexivity.
Qed.

(** X4.  A body tells which route produced it as far as this goes: two
    equal bodies come both from create or both from the other routes;
    if they are not Rejections they come from the same route; and
    bodies of status, update and cancel name the same identifier. *)
Theorem body_identifies_route request1 request2 h1 h2 storage1 storage2 :
  response_of (router request1 h1 storage1) =
    response_of (router request2 h2 storage2) ->
  is_create request1 = is_create request2 /\
  (is_rejection (response_of (router request1 h1 storage1)) = false ->
     kind_of request1 = kind_of request2) /\
  (is_create request1 = false ->
     requested_id request1 = requested_id request2).
Proof.
  rewrite !response_of_router. cbv zeta. pose proof details_differ as Hd.
  destruct request1, request2;
    destruct (truthy (store_call _ storage1).1),
      (truthy (store_call _ storage2).1);
    simpl; intros Heq; try discriminate Heq;
    repeat split; intros; try reflexivity; try discriminate;
    congruence.
Qed.

(** X5.  Every Success carries exactly one action tag, and every
    Rejection exactly one detail and one error. *)
Theorem response_lists_are_singletons request h storage :
  match response_of (router request h storage) with
  | RequestSuccess actions _ => length actions = 1%nat
  | RequestRejection additional errors _ =>
      length additional = 1%nat /\ length errors = 1%nat
  | RequestAcknowledgement _ => True
  end.
Proof.
  rewrite response_of_router. cbv zeta.
  destruct request, (truthy _); simpl; auto.
Qed.
End RouteShapes.

Section Runs.
Context {St : Type} `{!Storage St}.
Implicit Types (requests : list LifecycleRequest) (storage : St).

Lemma serve_all_cons (request : LifecycleRequest) requests storage :
  serve_all (request :: requests) storage =
    ((response_of (router request new_response storage),
      sent_status (http_of (router request new_response storage)))
       :: (serve_all requests
             (storage_of (router request new_response storage))).1,
     (serve_all requests
        (storage_of (router request new_response storage))).2).
Proof.
  cbn [serve_all]. destruct (serve_all requests _). reflexivity.
Qed.

(** X6.  A run of requests leaves the storage exactly as the calls of
    the lifecycle table, made in the order of the requests, leave it:
    the routes add no storage effect of their own, and every request
    is answered. *)
Theorem run_storage_is_the_calls requests storage :
  (serve_all requests storage).2 = call_all requests storage /\
  length (serve_all requests storage).1 = length requests.
Proof.
  revert storage. induction requests as [|request requests IH]; intros storage.
  - split; reflexivity.
  - rewrite serve_all_cons. cbn [fst snd call_all length].
    rewrite storage_of_router.
    destruct (IH (store_call request storage).2) as [IH1 IH2].
    split; [exact IH1 | f_equal; exact IH2].
Qed.
End Runs.

(** X7.  On a logging storage a run of requests appends one call per
    request, in the order of the requests and with their arguments,
    whatever the calls return: no request is served without its call
    and none repeats it. *)
Theorem run_logs_one_call_per_request {St : Type} `{!Storage St}
    (requests : list LifecycleRequest) (storage : St) (log : list StoreCall) :
  (serve_all requests (storage, log)).2 =
    (call_all requests storage, (log ++ (table_call <$> requests))%list).
Proof.
  revert storage log.
  induction requests as [|request requests IH]; intros storage log.
  - simpl. rewrite app_nil_r. reflexivity.
  - rewrite serve_all_cons. cbn [fst snd call_all fmap list_fmap].
    rewrite storage_of_router.
    assert (Hcall : (store_call request (storage, log)).2 =
              ((store_call request storage).2,
               (log ++ [table_call request])%list)).
    { destruct request; simpl; unfold logged; simpl;
        match goal with |- context [let '(_, _) := ?c in _] =>
          destruct c as [v s'] end; reflexivity. }
    rewrite Hcall, IH. rewrite <- app_assoc. reflexivity.
Qed.

Lemma body_identifies_route_witness :
  response_of (router (Update "a" (sample_item None)) new_response
                 sample_store) =
    response_of (router (Update "a" (sample_item (Some "z"))) new_response
                   sample_store) /\
  kind_of (Update "a" (sample_item None)) =
    kind_of (Update "a" (sample_item (Some "z"))) /\
  requested_id (Update "a" (sample_item None)) =
    requested_id (Update "a" (sample_item (Some "z"))).
Proof.
  assert (H : response_of (router (Update "a" (sample_item None))
                             new_response sample_store) =
              response_of (router (Update "a" (sample_item (Some "z")))
                             new_response sample_store))
    by (vm_compute; reflexivity).
  destruct (body_identifies_route _ _ _ _ _ _ H) as (_ & Hkind & Hid).
  split; [exact H | split].
  - apply Hkind. vm_compute. reflexivity.
  - apply Hid. reflexivity.
Defined.

(** * Success outcomes and raised exceptions *)

Section FalseValues.
Import TransactionStore.


(** On the transaction store a success outcome reaches the route as a
    true value unless it names the empty identifier. *)
Lemma success_outcome_truthy (o : Outcome) :
  truthy (returned o) = true <->
  match o with
  | Created id | Updated id | Removed id => id <> ""
  | Found _ _ => True
  | Conflict _ | Absent _ => False
  end.
Proof.
  destruct o as [id|id record|id|id|id|id]; simpl.
  - destruct (String.eqb_spec id ""); simpl; split; congruence.
  - split; auto.
  - destruct (String.eqb_spec id ""); simpl; split; congruence.
  - destruct (String.eqb_spec id ""); simpl; split; congruence.
  - split; [discriminate | intros []].
  - split; [discriminate | intros []].
Qed.

End FalseValues.

Section RaisingRoutes.
Context {St : Type} `{!RaisingStorage St}.
Implicit Types (request : LifecycleRequest) (h : Response) (storage : St).

End RaisingRoutes.

(** Over a storage that never raises, the routes with exceptions are
    the routes as first given. *)
Lemma raising_router_returning {St : Type} `{!Storage St}
    (request : LifecycleRequest) (h : Response) (storage : St) :
  Raising.router request h storage =
    (Returned (response_of (router request h storage),
               http_of (router request h storage)),
     storage_of (router request h storage)).
Proof.
  destruct request; simpl;
    unfold Raising.voter_registration_request,
      Raising.voter_registration_status, Raising.voter_registration_update,
      Raising.voter_registration_cancel,
      voter_registration_request, voter_registration_status,
      voter_registration_update, voter_registration_cancel;
    simpl; unfold returning;
    match goal with |- context [let '(_, _) := ?c in _] =>
      destruct c as [v s'] end;
    simpl; destruct (truthy v); reflexivity.
Qed.

